(** * Cross-entropy and softmax ("Basic Concepts")

    A shallow embedding of the two scripts

      - [Basic Concepts/crossentropy.py]  ([cross_entropy], [listy], [listp],
        [cross_entropy_answer])
      - [Basic Concepts/softmax.py]       ([softmax], [list1], [ans])

    Both functions are written against numpy.  numpy is not part of the
    repository, so the handful of operations the scripts use ([np.float_],
    [np.log], [np.exp], [np.sum], the elementwise [*], [+], [-] with their
    broadcasting rule, and the scalar [/]) are taken as an interface, the class
    [Numpy], and the two functions are written once, over any implementation
    of it.  Two implementations are then studied:

      - [RealModel]: exact real arithmetic ([R], [exp], [ln]); this is the
        reading in which the formulas of the specification are stated;
      - [Binary64]: IEEE 754 double precision, as numpy's [float64], on
        [spec_float] with [prec = 53] and [emax = 1024]; the transcendental
        kernels of the C library are kept abstract, constrained only by their
        special values.

    The semantics is that of numpy 1.x, where [np.float_] is an alias of
    [np.float64], with numpy's default error state (floating-point
    exceptions are warnings).  Inputs are one-dimensional sequences of
    numbers. *)

From Stdlib Require Import List Arith ZArith Lia Bool Permutation.
From Stdlib Require Import Reals Lra.
From Stdlib Require Import Floats.SpecFloat.
Import ListNotations.

(** ** Python results

    Of everything the two functions do, only the elementwise operators on
    arrays of incompatible shapes raise ([ValueError: operands could not be
    broadcast together]).  A division by zero or the logarithm of zero on
    [float64] values only emits a [RuntimeWarning] and yields a value. *)

Inductive pyresult (A : Type) : Type :=
| Ok (a : A)
| ValueError.

Arguments Ok {A} a.
Arguments ValueError {A}.

Definition bind {A B : Type} (r : pyresult A) (k : A -> pyresult B) : pyresult B :=
  match r with
  | Ok a => k a
  | ValueError => ValueError
  end.

Notation "x <- r ;; k" := (bind r (fun x => k))
  (at level 61, r at next level, right associativity).

(** ** The numpy interface *)

Class Numpy (F : Type) : Type := {
  f_zero : F;
  f_one : F;
  f_add : F -> F -> F;
  f_sub : F -> F -> F;
  f_mul : F -> F -> F;
  f_div : F -> F -> F;
  f_neg : F -> F;
  (** the scalar kernels of [np.exp] and [np.log] *)
  f_exp : F -> F;
  f_log : F -> F;
  (** [np.sum] of a one-dimensional array *)
  np_sum : list F -> F
}.

Section Code.

Context {F : Type} {N : Numpy F}.

(** A one-dimensional [ndarray] of [float64] is the list of its elements. *)
Definition ndarray : Type := list F.

(** [np.float_(Y)]: the sequence as a fresh [float64] array.  The elements
    are already given as values of [F] (the literals [1] and [0] of [listy]
    are [f_one] and [f_zero]). *)
Definition np_float_ (Y : list F) : ndarray := Y.

Definition np_log (a : ndarray) : ndarray := map f_log a.
Definition np_exp (a : list F) : ndarray := map f_exp a.

(** [s - a] for a Python scalar [s]: the scalar is broadcast. *)
Definition scalar_sub (s : F) (a : ndarray) : ndarray := map (f_sub s) a.

Fixpoint zip_with (f : F -> F -> F) (a b : ndarray) : ndarray :=
  match a, b with
  | x :: a', y :: b' => f x y :: zip_with f a' b'
  | _, _ => []
  end.

(** An elementwise binary operator on two one-dimensional arrays: shapes
    [(n,)] and [(m,)] are compatible when [n = m] or one of them is [1];
    a length-one operand is stretched to the other length. *)
Definition elementwise (f : F -> F -> F) (a b : ndarray) : pyresult ndarray :=
  if length a =? length b then Ok (zip_with f a b)
  else match a, b with
       | [x], _ => Ok (map (f x) b)
       | _, [y] => Ok (map (fun x => f x y) a)
       | _, _ => ValueError
       end.

(** [crossentropy.py], lines 3-6. *)
Definition cross_entropy (Y P : list F) : pyresult F :=
  let Y := np_float_ Y in
  let P := np_float_ P in
  t1 <- elementwise f_mul Y (np_log P) ;;
  t2 <- elementwise f_mul (scalar_sub f_one Y) (np_log (scalar_sub f_one P)) ;;
  s <- elementwise f_add t1 t2 ;;
  Ok (f_neg (np_sum s)).

(** [softmax.py], lines 7-13.  The [for] loop is a left fold over [expl]
    whose state is the list [result]; the state also counts the divisions
    performed, one per iteration. *)
Record loop_state : Type := {
  result : list F;
  divisions : nat
}.

Definition loop_body (sumExpl : F) (st : loop_state) (i : F) : loop_state :=
  {| result := result st ++ [f_div i sumExpl];
     divisions := S (divisions st) |}.

Definition softmax_run (L : list F) : loop_state :=
  let expl := np_exp L in
  let sumExpl := np_sum expl in
  fold_left (loop_body sumExpl) expl {| result := []; divisions := 0 |}.

Definition softmax (L : list F) : list F := result (softmax_run L).

(** *** Structural lemmas, valid for every implementation of numpy *)

Lemma zip_with_length (f : F -> F -> F) (a b : ndarray) :
  length a = length b -> length (zip_with f a b) = length a.
Proof.
  revert b; induction a as [|x a IH]; intros [|y b] E; simpl in *;
    try discriminate; auto.
Qed.

Lemma zip_with_nth (f : F -> F -> F) (a b : ndarray) (d : F) (i : nat) :
  length a = length b -> i < length a ->
  nth i (zip_with f a b) d = f (nth i a d) (nth i b d).
Proof.
  revert b i; induction a as [|x a IH]; intros [|y b] [|i] E Hi; simpl in *;
    try discriminate; try lia; auto.
  apply IH; lia.
Qed.

Lemma zip_with_repeat_l (f : F -> F -> F) (x : F) (b : ndarray) :
  zip_with f (repeat x (length b)) b = map (f x) b.
Proof. induction b as [|y b IH]; simpl; congruence. Qed.

Lemma zip_with_repeat_r (f : F -> F -> F) (a : ndarray) (y : F) :
  zip_with f a (repeat y (length a)) = map (fun x => f x y) a.
Proof. induction a as [|x a IH]; simpl; congruence. Qed.

Lemma elementwise_same_length (f : F -> F -> F) (a b : ndarray) :
  length a = length b -> elementwise f a b = Ok (zip_with f a b).
Proof.
  intros E; unfold elementwise.
  now rewrite (proj2 (Nat.eqb_eq _ _) E).
Qed.

Lemma elementwise_mismatch (f : F -> F -> F) (a b : ndarray) :
  length a <> length b -> length a <> 1 -> length b <> 1 ->
  elementwise f a b = ValueError.
Proof.
  intros E Ha Hb; unfold elementwise.
  rewrite (proj2 (Nat.eqb_neq _ _) E).
  destruct a as [|x [|x' a]]; destruct b as [|y [|y' b]]; simpl in *;
    congruence.
Qed.

Lemma elementwise_stretch_l (f : F -> F -> F) (x : F) (b : ndarray) :
  elementwise f [x] b = Ok (map (f x) b).
Proof.
  unfold elementwise.
  destruct b as [|y [|y' b]]; reflexivity.
Qed.

Lemma elementwise_stretch_r (f : F -> F -> F) (a : ndarray) (y : F) :
  elementwise f a [y] = Ok (map (fun x => f x y) a).
Proof.
  unfold elementwise.
  destruct a as [|x [|x' a]]; reflexivity.
Qed.

(** The loop of [softmax] appends one quotient per element of [expl]. *)
Lemma loop_spec (s : F) (l : list F) (st : loop_state) :
  fold_left (loop_body s) l st =
  {| result := result st ++ map (fun i => f_div i s) l;
     divisions := divisions st + length l |}.
Proof.
  revert st; induction l as [|i l IH]; intros [r d]; simpl.
  - now rewrite app_nil_r, Nat.add_0_r.
  - rewrite IH; simpl. rewrite <- app_assoc; simpl.
    f_equal; lia.
Qed.

Lemma softmax_eq (L : list F) :
  softmax L = map (fun i => f_div i (np_sum (np_exp L))) (np_exp L).
Proof. unfold softmax, softmax_run. now rewrite loop_spec. Qed.



End Code.

(** ** Shapes, determinism and the empty input

    These results hold for every implementation of the interface, in
    particular for both models below. *)

Section Shapes.

Context {F : Type} {N : Numpy F}.

(** Silent truncation to the shorter length, in the words of section 7 of
    the specification: the result on the first [min |Y| |P|] elements of
    each sequence. *)
Definition cross_entropy_truncated (Y P : list F) : pyresult F :=
  let n := Nat.min (length Y) (length P) in
  cross_entropy (firstn n Y) (firstn n P).

Lemma cross_entropy_stretch_Y (y : F) (P : list F) :
  cross_entropy [y] P = cross_entropy (repeat y (length P)) P.
Proof.
  unfold cross_entropy, np_float_, np_log, scalar_sub.
  cbn [map]. rewrite !elementwise_stretch_l.
  rewrite !elementwise_same_length by (now rewrite ?length_map, !repeat_length).
  rewrite <- (length_map f_log P) at 1. rewrite zip_with_repeat_l.
  rewrite map_repeat.
  rewrite <- (length_map (f_sub f_one) P), <- (length_map f_log (map (f_sub f_one) P)).
  now rewrite zip_with_repeat_l.
Qed.

Lemma cross_entropy_stretch_P (Y : list F) (p : F) :
  cross_entropy Y [p] = cross_entropy Y (repeat p (length Y)).
Proof.
  unfold cross_entropy, np_float_, np_log, scalar_sub.
  cbn [map]. rewrite !elementwise_stretch_r.
  rewrite !elementwise_same_length by (now rewrite ?length_map, !repeat_length).
  rewrite !map_repeat, zip_with_repeat_r.
  rewrite <- (length_map (f_sub f_one) Y).
  now rewrite zip_with_repeat_r.
Qed.

Lemma cross_entropy_shape_error (Y P : list F) :
  length Y <> length P -> length Y <> 1 -> length P <> 1 ->
  cross_entropy Y P = ValueError.
Proof.
  intros E HY HP. unfold cross_entropy, np_float_, np_log.
  rewrite elementwise_mismatch by (now rewrite ?length_map).
  reflexivity.
Qed.

(** C8, as amended: on sequences of different lengths [cross_entropy] raises
    the shape error unless one of the two has exactly one element; a
    one-element [Y] or [P] is stretched to the length of the other sequence
    and the result is the one for the stretched pair.  Nothing is
    truncated. *)
Theorem cross_entropy_length_mismatch (Y P : list F) :
  length Y <> length P ->
  (length Y <> 1 -> length P <> 1 -> cross_entropy Y P = ValueError) /\
  (forall y, Y = [y] -> cross_entropy Y P = cross_entropy (repeat y (length P)) P) /\
  (forall p, P = [p] -> cross_entropy Y P = cross_entropy Y (repeat p (length Y))).
Proof.
  intros E. split; [|split].
  - now apply cross_entropy_shape_error.
  - intros y ->. apply cross_entropy_stretch_Y.
  - intros p ->. apply cross_entropy_stretch_P.
Qed.


(** C10: on the empty sequence [softmax] returns the empty list, and its
    loop performs no division (the sum of the empty array is computed but
    never used as a divisor). *)
Theorem softmax_empty :
  softmax (@nil F) = [] /\ divisions (softmax_run []) = 0.
Proof.
  split; reflexivity.
Qed.

End Shapes.

(** ** Exact real arithmetic

    The formulas of the specification are formulas on real numbers.  Here
    numpy is read in exact arithmetic: [float64] is [R], [np.exp] and
    [np.log] are [exp] and [ln], and [np.sum] accumulates with [Rplus]
    (numpy's blocked, pairwise grouping of the additions is immaterial in
    [R], where addition is associative). *)

Module RealModel.

Local Open Scope R_scope.

#[export] Instance real_numpy : Numpy R := {|
  f_zero := 0;
  f_one := 1;
  f_add := Rplus;
  f_sub := Rminus;
  f_mul := Rmult;
  f_div := Rdiv;
  f_neg := Ropp;
  f_exp := exp;
  f_log := ln;
  np_sum := fun a => fold_left Rplus a 0
|}.

(** [Rsum n f] is the sum of [f i] for [i] from [0] to [n - 1]. *)
Definition Rsum (n : nat) (f : nat -> R) : R :=
  fold_right Rplus 0 (map f (seq 0 n)).







Lemma fold_left_Rplus (a : list R) (x : R) :
  fold_left Rplus a x = x + fold_right Rplus 0 a.
Proof.
  revert x; induction a as [|y a IH]; intros x; simpl.
  - lra.
  - rewrite IH. lra.
Qed.

Lemma np_sum_fold_right (a : list R) : np_sum a = fold_right Rplus 0 a.
Proof. simpl. rewrite fold_left_Rplus. lra. Qed.

Lemma Rsum_ext (n : nat) (f g : nat -> R) :
  (forall i, (i < n)%nat -> f i = g i) -> Rsum n f = Rsum n g.
Proof.
  intros E. unfold Rsum. f_equal. apply map_ext_in.
  intros i Hi. apply in_seq in Hi. apply E. lia.
Qed.

Lemma Rsum_S (n : nat) (f : nat -> R) :
  Rsum (S n) f = f 0%nat + Rsum n (fun i => f (S i)).
Proof.
  unfold Rsum. simpl. f_equal.
  now rewrite <- seq_shift, map_map.
Qed.

Lemma Rsum_nth (a : list R) (d : R) :
  fold_right Rplus 0 a = Rsum (length a) (fun i => nth i a d).
Proof.
  induction a as [|x a IH]; [reflexivity|].
  cbn [length]. rewrite Rsum_S. simpl. now rewrite IH.
Qed.

Lemma np_sum_Rsum (a : list R) (d : R) :
  np_sum a = Rsum (length a) (fun i => nth i a d).
Proof. rewrite np_sum_fold_right. apply Rsum_nth. Qed.




(** On arrays of one length, [cross_entropy] is the negated sum of the
    elementwise terms. *)
Lemma cross_entropy_same_length (Y P : list R) :
  length Y = length P ->
  cross_entropy Y P =
  Ok (- Rsum (length Y)
          (fun i => nth i Y 0 * ln (nth i P 0) + (1 - nth i Y 0) * ln (1 - nth i P 0))).
Proof.
  intros E. unfold cross_entropy, np_float_, np_log, scalar_sub.
  assert (L1 : length Y = length (map f_log P)) by now rewrite length_map.
  assert (L2 : length (map (f_sub f_one) Y) = length (map f_log (map (f_sub f_one) P)))
    by now rewrite !length_map.
  rewrite (elementwise_same_length f_mul _ _ L1).
  rewrite (elementwise_same_length f_mul _ _ L2).
  cbn [bind].
  set (t1 := zip_with f_mul Y _).
  set (t2 := zip_with f_mul (map _ Y) _).
  assert (H1 : length t1 = length Y) by (apply zip_with_length, L1).
  assert (H2 : length t2 = length Y)
    by (unfold t2; rewrite (zip_with_length _ _ _ L2); apply length_map).
  rewrite elementwise_same_length by congruence.
  cbn [bind]. f_equal. cbn [f_neg real_numpy]. f_equal.
  rewrite (np_sum_Rsum _ 0), zip_with_length, H1 by congruence.
  apply Rsum_ext. intros i Hi.
  rewrite zip_with_nth by lia.
  unfold t1, t2.
  rewrite (zip_with_nth _ _ _ _ _ L1) by lia.
  rewrite (zip_with_nth _ _ _ _ _ L2) by (rewrite length_map; lia).
  cbn [f_add f_mul f_sub f_one f_log real_numpy].
  rewrite (nth_indep (map ln P) 0 (ln 0)) by (rewrite length_map; lia).
  rewrite (map_nth ln).
  rewrite (nth_indep (map (Rminus 1) Y) 0 (1 - 0)) by (rewrite length_map; lia).
  rewrite (map_nth (Rminus 1)).
  rewrite (nth_indep (map ln (map (Rminus 1) P)) 0 (ln (1 - 0))) by (rewrite !length_map; lia).
  rewrite (map_nth ln), (map_nth (Rminus 1)).
  reflexivity.
Qed.

Lemma ln_neg (p : R) : 0 < p < 1 -> ln p < 0.
Proof.
  intros [H0 H1]. rewrite <- ln_1. now apply ln_increasing.
Qed.




(** *** Decimal bounds on [exp 1] and [ln 5] *)






























(** C8, as stated, fails: a one-element [Y] against a two-element [P] is
    neither rejected nor truncated; its element is paired with both
    elements of [P]. *)
Lemma cross_entropy_broadcast_counterexample :
  ~ (length [1] <> length [1/2; 1/2] ->
     cross_entropy [1] [1/2; 1/2] = ValueError \/
     cross_entropy [1] [1/2; 1/2] = cross_entropy_truncated [1] [1/2; 1/2]).
Proof.
  intros H. specialize (H ltac:(discriminate)).
  rewrite cross_entropy_stretch_Y in H. unfold cross_entropy_truncated in H.
  cbn [length Nat.min firstn repeat] in H.
  rewrite !cross_entropy_same_length in H by reflexivity.
  destruct H as [H | H]; [discriminate|].
  injection H as H. unfold Rsum in H. cbn in H.
  assert (Hl : ln (1 / 2) < 0) by (apply ln_neg; lra).
  lra.
Qed.

Lemma cross_entropy_length_mismatch_witness :
  (length [1] <> 1%nat -> length [1/2; 1/2] <> 1%nat ->
   cross_entropy [1] [1/2; 1/2] = ValueError) /\
  (forall y, [1] = [y] ->
   cross_entropy [1] [1/2; 1/2] = cross_entropy (repeat y (length [1/2; 1/2])) [1/2; 1/2]) /\
  (forall p, [1/2; 1/2] = [p] ->
   cross_entropy [1] [1/2; 1/2] = cross_entropy [1] (repeat p (length [1]))).
Proof.
  apply (cross_entropy_length_mismatch [1] [1/2; 1/2]). discriminate.
Defined.


End RealModel.

(** ** IEEE 754 double precision

    numpy's [float64] is the binary64 format.  Its values are the
    [spec_float]s of the standard library at precision 53 and maximal
    exponent 1024 (one NaN: payloads are not modelled), and [+], [-], [*],
    [/] are the correctly rounded operations [SFadd], [SFsub], [SFmul],
    [SFdiv].

    [np.exp], [np.log] and the order in which [np.sum] adds are not fixed by
    IEEE 754; they depend on the numpy build and on the C library.  They
    are the three fields of [libm], and the results below hold for every
    [libm] that is [conforming]: the logarithm of a zero is [-inf], the
    exponential overflows to [+inf] from 710 on (past [ln] of the largest
    double, 709.78...), and [np.sum] adds the elements of the array, each
    once, in some grouping. *)

Module Binary64.

Definition float64 : Type := spec_float.

Definition prec : Z := 53.
Definition emax : Z := 1024.

Definition f64_add : float64 -> float64 -> float64 := SFadd prec emax.
Definition f64_sub : float64 -> float64 -> float64 := SFsub prec emax.
Definition f64_mul : float64 -> float64 -> float64 := SFmul prec emax.
Definition f64_div : float64 -> float64 -> float64 := SFdiv prec emax.
Definition f64_neg : float64 -> float64 := SFopp.

(** The double nearest to the integer [z] times [2 ^ e]. *)
Definition f64_of_Z (z : Z) (e : Z) : float64 := binary_normalize prec emax z e false.

Definition pos_zero : float64 := S754_zero false.
Definition pos_inf : float64 := S754_infinity false.
Definition neg_inf : float64 := S754_infinity true.
Definition f64_one : float64 := Eval vm_compute in f64_of_Z 1 0.
Definition f64_710 : float64 := Eval vm_compute in f64_of_Z 710 0.
Definition f64_1000 : float64 := Eval vm_compute in f64_of_Z 1000 0.

(** Infinite or NaN. *)
Definition nonfinite (x : float64) : bool :=
  match x with
  | S754_infinity _ | S754_nan => true
  | S754_zero _ | S754_finite _ _ _ => false
  end.

(** [0 < x], as the comparison [x > 0] of Python evaluates it (false on
    NaN). *)
Definition positive64 (x : float64) : bool := SFltb pos_zero x.

Record libm : Type := {
  exp64 : float64 -> float64;
  log64 : float64 -> float64;
  sum64 : list float64 -> float64
}.

(** [sums_to a s]: [s] is obtained by adding the elements of [a], each
    once, in some order and grouping, possibly starting from [0.0]. *)
Inductive sums_to : list float64 -> float64 -> Prop :=
| sums_nil : sums_to [] pos_zero
| sums_one (x : float64) : sums_to [x] x
| sums_app (a b : list float64) (x y : float64) :
    sums_to a x -> sums_to b y -> sums_to (a ++ b) (f64_add x y)
| sums_perm (a b : list float64) (x : float64) :
    Permutation a b -> sums_to a x -> sums_to b x.

Record conforming (m : libm) : Prop := {
  log_zero : forall s, log64 m (S754_zero s) = neg_inf;
  exp_overflow : forall x,
    valid_binary prec emax x = true -> SFleb f64_710 x = true ->
    exp64 m x = pos_inf;
  sum_grouping : forall a, sums_to a (sum64 m a)
}.

Definition numpy64 (m : libm) : Numpy float64 := {|
  f_zero := pos_zero;
  f_one := f64_one;
  f_add := f64_add;
  f_sub := f64_sub;
  f_mul := f64_mul;
  f_div := f64_div;
  f_neg := f64_neg;
  f_exp := exp64 m;
  f_log := log64 m;
  np_sum := sum64 m
|}.




(** *** Reference kernels

    One conforming [libm], computed with binary64 operations only: the
    exponential by scaling and squaring of its series, the logarithm by
    [ln x = k ln 2 + 2 atanh ((f - 1) / (f + 1))] for [x = f 2^k], and the
    sum by left-to-right accumulation.  It shows that [conforming] can be
    met and lets the model run. *)

Definition f64_ln2 : float64 := S754_finite false 6243314768165359 (-53).
Definition f64_sqrt_half : float64 := S754_finite false 6369051672525773 (-53).
Definition f64_m746 : float64 := Eval vm_compute in f64_of_Z (-746) 0.

(** [1 + y/k (1 + y/(k+1) (1 + ...))], [n] levels deep. *)
Fixpoint horner_exp (n : nat) (k : Z) (y : float64) : float64 :=
  match n with
  | O => f64_one
  | S n' =>
      f64_add f64_one
        (f64_mul (f64_div y (f64_of_Z k 0)) (horner_exp n' (k + 1) y))
  end.

Definition square (x : float64) : float64 := f64_mul x x.

Definition ref_exp (x : float64) : float64 :=
  match x with
  | S754_nan => S754_nan
  | S754_infinity false => pos_inf
  | S754_infinity true => pos_zero
  | S754_zero _ => f64_one
  | S754_finite _ _ _ =>
      if SFleb f64_710 x then pos_inf
      else if SFleb x f64_m746 then pos_zero
      else Nat.iter 10 square (horner_exp 20 1 (SFldexp prec emax x (-10)))
  end.

(** [1/k + w (1/(k+2) + w (...))], [n] levels deep. *)
Fixpoint horner_atanh (n : nat) (k : Z) (w : float64) : float64 :=
  match n with
  | O => f64_div f64_one (f64_of_Z k 0)
  | S n' =>
      f64_add (f64_div f64_one (f64_of_Z k 0))
        (f64_mul w (horner_atanh n' (k + 2) w))
  end.

Definition ref_log (x : float64) : float64 :=
  match x with
  | S754_nan => S754_nan
  | S754_zero _ => neg_inf
  | S754_infinity false => pos_inf
  | S754_infinity true => S754_nan
  | S754_finite true _ _ => S754_nan
  | S754_finite false _ _ =>
      let '(f, k) := SFfrexp prec emax x in
      let '(f, k) :=
        if SFltb f f64_sqrt_half then (SFldexp prec emax f 1, (k - 1)%Z)
        else (f, k) in
      let z := f64_div (f64_sub f f64_one) (f64_add f f64_one) in
      f64_add (f64_mul (f64_of_Z k 0) f64_ln2)
        (f64_mul (f64_of_Z 2 0) (f64_mul z (horner_atanh 12 1 (square z))))
  end.

Definition ref_sum (a : list float64) : float64 := fold_left f64_add a pos_zero.

Definition ref_libm : libm :=
  {| exp64 := ref_exp; log64 := ref_log; sum64 := ref_sum |}.

(** [x] is within [10 ^ - tol] of the decimal [num / 10 ^ digits]. *)
Definition f64_close (x : float64) (num digits tol : Z) : bool :=
  SFleb (SFabs (f64_sub x (f64_div (f64_of_Z num 0) (f64_of_Z (10 ^ digits) 0))))
        (f64_div f64_one (f64_of_Z (10 ^ tol) 0)).

Definition all_close (rs : list float64) (vs : list Z) (digits tol : Z) : bool :=
  (length rs =? length vs) &&
  forallb (fun rv => f64_close (fst rv) (snd rv) digits tol) (combine rs vs).

(** *** Infinities and NaN are absorbing *)

Lemma add_nonfinite_l (x y : float64) :
  nonfinite x = true -> nonfinite (f64_add x y) = true.
Proof.
  destruct x as [| [|] | |]; try discriminate; intros _;
    destruct y as [| [|] | |]; reflexivity.
Qed.

Lemma add_nonfinite_r (x y : float64) :
  nonfinite y = true -> nonfinite (f64_add x y) = true.
Proof.
  destruct y as [| [|] | |]; try discriminate; intros _;
    destruct x as [| [|] | |]; reflexivity.
Qed.

Lemma mul_inf_nonfinite (x : float64) (s : bool) :
  nonfinite (f64_mul x (S754_infinity s)) = true.
Proof. destruct x; reflexivity. Qed.

Lemma neg_nonfinite (x : float64) : nonfinite (f64_neg x) = nonfinite x.
Proof. destruct x; reflexivity. Qed.

Lemma sums_to_nonfinite (a : list float64) (s : float64) :
  sums_to a s -> Exists (fun x => nonfinite x = true) a -> nonfinite s = true.
Proof.
  induction 1 as [| x | a b x y _ IHa _ IHb | a b x HP _ IH]; intros HE.
  - inversion HE.
  - inversion HE as [? ? H | ? ? H]; [assumption | inversion H].
  - apply Exists_app in HE as [HE | HE].
    + apply add_nonfinite_l; auto.
    + apply add_nonfinite_r; auto.
  - apply IH. apply Exists_exists in HE as (z & Hz & Hn).
    apply Exists_exists. exists z. split; [|assumption].
    apply Permutation_sym in HP. exact (Permutation_in _ HP Hz).
Qed.

Lemma one_minus_one : f64_sub f64_one f64_one = pos_zero.
Proof. reflexivity. Qed.



(** The terms of [cross_entropy] at an index where [P] is [0.0], [-0.0] or
    [1.0] are infinite or NaN, whatever [Y] holds there. *)
Lemma terms_nonfinite (m : libm) (Y P : list float64) :
  conforming m ->
  length Y = length P ->
  Exists (fun p => p = S754_zero false \/ p = S754_zero true \/ p = f64_one) P ->
  Exists (fun x => nonfinite x = true)
    (zip_with f64_add
       (zip_with f64_mul Y (map (log64 m) P))
       (zip_with f64_mul (map (f64_sub f64_one) Y)
          (map (log64 m) (map (f64_sub f64_one) P)))).
Proof.
  intros Hm. revert P; induction Y as [|y Y IH]; intros [|p P] E HE;
    simpl in E; try discriminate.
  - inversion HE.
  - cbn [map zip_with].
    inversion HE as [? ? Hp | ? ? Hp]; subst.
    + apply Exists_cons_hd.
      destruct Hp as [-> | [-> | ->]].
      * rewrite (log_zero m Hm). apply add_nonfinite_l, mul_inf_nonfinite.
      * rewrite (log_zero m Hm). apply add_nonfinite_l, mul_inf_nonfinite.
      * rewrite one_minus_one. unfold pos_zero. rewrite (log_zero m Hm).
        apply add_nonfinite_r, mul_inf_nonfinite.
    + apply Exists_cons_tl, IH; [congruence | assumption].
Qed.


Lemma ref_sum_acc (a b : list float64) (x : float64) :
  sums_to a x -> sums_to (a ++ b) (fold_left f64_add b x).
Proof.
  revert a x; induction b as [|y b IH]; intros a x H; simpl.
  - now rewrite app_nil_r.
  - replace (a ++ y :: b) with ((a ++ [y]) ++ b) by (now rewrite <- app_assoc).
    apply IH. apply sums_app; [assumption | constructor].
Qed.

Lemma ref_conforming : conforming ref_libm.
Proof.
  split.
  - intros s. reflexivity.
  - intros x _ Hle. destruct x as [s | [|] | | s mx ex]; try discriminate Hle.
    + reflexivity.
    + cbn [exp64 ref_libm ref_exp]. now rewrite Hle.
  - intros a. apply (ref_sum_acc [] a pos_zero). constructor.
Qed.

(** C7: if some [P[i]] is exactly [0.0], [-0.0] or [1.0], then
    [cross_entropy(Y, P)], on sequences of one length, raises no error and
    returns an infinity or NaN. *)
Theorem cross_entropy_nonfinite (m : libm) (Y P : list float64) :
  conforming m ->
  length Y = length P ->
  Exists (fun p => p = S754_zero false \/ p = S754_zero true \/ p = f64_one) P ->
  exists r, cross_entropy (N := numpy64 m) Y P = Ok r /\ nonfinite r = true.
Proof.
  intros Hm E HE.
  unfold cross_entropy, np_float_, np_log, scalar_sub.
  assert (L1 : length Y = length (map (log64 m) P)) by now rewrite length_map.
  assert (L2 : length (map (f64_sub f64_one) Y) =
               length (map (log64 m) (map (f64_sub f64_one) P)))
    by now rewrite !length_map.
  cbn [f_log f_sub f_one f_mul f_add f_neg np_sum numpy64].
  rewrite (elementwise_same_length f64_mul _ _ L1).
  rewrite (elementwise_same_length f64_mul _ _ L2).
  cbn [bind].
  rewrite elementwise_same_length
    by (rewrite !zip_with_length; rewrite ?length_map; auto).
  cbn [bind]. eexists. split; [reflexivity|].
  rewrite neg_nonfinite.
  apply (sums_to_nonfinite _ _ (sum_grouping m Hm _)).
  now apply terms_nonfinite.
Qed.

Lemma cross_entropy_nonfinite_witness :
  exists r,
    cross_entropy (N := numpy64 ref_libm)
      [f64_one; pos_zero] [f64_one; S754_finite false 4503599627370496 (-53)]
    = Ok r /\ nonfinite r = true.
Proof.
  apply (cross_entropy_nonfinite ref_libm).
  - exact ref_conforming.
  - reflexivity.
  - apply Exists_cons_hd. right. right. reflexivity.
Defined.


(** The double-precision run of the two scripts with the reference kernels. *)
Example binary64_cross_entropy_answer :
  match cross_entropy (N := numpy64 ref_libm)
          [f64_one; pos_zero; f64_one; f64_one]
          [S754_finite false 7205759403792794 (-54);
           S754_finite false 5404319552844595 (-53);
           S754_finite false 7205759403792794 (-56);
           S754_finite false 4503599627370496 (-53)]
  with
  | Ok r => f64_close r 48283137373 10 9 = true
  | ValueError => False
  end.
Proof. vm_compute. reflexivity. Qed.

Example binary64_softmax_ans :
  all_close
    (softmax (N := numpy64 ref_libm)
       [f64_of_Z 5 0; f64_of_Z 6 0; f64_of_Z 7 0; f64_of_Z 8 0])
    [320586; 871443; 2368828; 6439142]%Z 7 7 = true.
Proof. vm_compute. reflexivity. Qed.

End Binary64.

(** ** When [cross_entropy] returns *)

Section ShapeLaws.

Context {F : Type} {N : Numpy F}.

Lemma cross_entropy_ok_same_length (Y P : list F) :
  length Y = length P -> exists r, cross_entropy Y P = Ok r.
Proof.
  intros E. unfold cross_entropy, np_float_, np_log, scalar_sub.
  assert (L1 : length Y = length (map f_log P)) by now rewrite length_map.
  assert (L2 : length (map (f_sub f_one) Y) = length (map f_log (map (f_sub f_one) P)))
    by now rewrite !length_map.
  rewrite (elementwise_same_length f_mul _ _ L1).
  rewrite (elementwise_same_length f_mul _ _ L2).
  cbn [bind].
  rewrite elementwise_same_length
    by (rewrite !zip_with_length; rewrite ?length_map; auto).
  cbn [bind]. eexists. reflexivity.
Qed.

(** X17: [cross_entropy] returns a value exactly when the two sequences
    have the same length or one of them has a single element; in every
    other case it raises the shape error. *)
Theorem cross_entropy_returns_iff (Y P : list F) :
  (exists r, cross_entropy Y P = Ok r) <->
  (length Y = length P \/ length Y = 1 \/ length P = 1).
Proof.
  split.
  - intros [r Hr].
    destruct (Nat.eq_dec (length Y) (length P)) as [|E]; [now left|].
    destruct (Nat.eq_dec (length Y) 1) as [|HY]; [now right; left|].
    destruct (Nat.eq_dec (length P) 1) as [|HP]; [now right; right|].
    rewrite (cross_entropy_shape_error Y P E HY HP) in Hr. discriminate.
  - intros [E | [HY | HP]].
    + now apply cross_entropy_ok_same_length.
    + destruct Y as [|y [|y' Y]]; try discriminate.
      rewrite cross_entropy_stretch_Y.
      apply cross_entropy_ok_same_length, repeat_length.
    + destruct P as [|p [|p' P]]; try discriminate.
      rewrite cross_entropy_stretch_P.
      apply cross_entropy_ok_same_length. now rewrite repeat_length.
Qed.

End ShapeLaws.

(** ** Laws of the two functions in exact arithmetic

    Further properties of [softmax] and [cross_entropy] as the code computes
    them, read in [RealModel]. *)

Module RealLaws.

Import RealModel.
Local Open Scope R_scope.

























































End RealLaws.

(** ** Special values in double precision

    How [cross_entropy] and [softmax] treat the empty input, NaN and
    overflow on binary64, for every conforming library. *)

Module Binary64Laws.

Import Binary64.

(** [0.0], [-0.0] or NaN: what a quotient by an infinity or NaN can be. *)
Definition zero_or_nan (x : float64) : bool :=
  match x with
  | S754_zero _ | S754_nan => true
  | S754_infinity _ | S754_finite _ _ _ => false
  end.

Lemma sums_to_nil_inv (a : list float64) (s : float64) :
  sums_to a s -> a = [] -> s = pos_zero.
Proof.
  induction 1 as [| x | a b x y _ IHa _ IHb | a b x HP _ IH]; intros E.
  - reflexivity.
  - discriminate.
  - apply app_eq_nil in E as [-> ->]. rewrite IHa, IHb; reflexivity.
  - subst b. apply IH. apply Permutation_sym in HP.
    now apply Permutation_nil.
Qed.

Lemma add_nan_l (y : float64) : f64_add S754_nan y = S754_nan.
Proof. reflexivity. Qed.

Lemma add_nan_r (x : float64) : f64_add x S754_nan = S754_nan.
Proof. destruct x; reflexivity. Qed.

Lemma mul_nan_l (y : float64) : f64_mul S754_nan y = S754_nan.
Proof. reflexivity. Qed.

Lemma mul_nan_r (x : float64) : f64_mul x S754_nan = S754_nan.
Proof. destruct x; reflexivity. Qed.

Lemma div_nan_r (x : float64) : f64_div x S754_nan = S754_nan.
Proof. destruct x; reflexivity. Qed.

Lemma sub_nan_r (x : float64) : f64_sub x S754_nan = S754_nan.
Proof. destruct x; reflexivity. Qed.

Lemma div_nonfinite (x s : float64) :
  nonfinite s = true -> zero_or_nan (f64_div x s) = true.
Proof.
  destruct s as [| [|] | |]; try discriminate; intros _;
    destruct x as [| [|] | |]; reflexivity.
Qed.

Lemma zero_or_nan_not_positive (x : float64) :
  zero_or_nan x = true -> positive64 x = false.
Proof. destruct x as [[|] | | |]; try discriminate; reflexivity. Qed.

Lemma sums_to_nan (a : list float64) (s : float64) :
  sums_to a s -> In S754_nan a -> s = S754_nan.
Proof.
  induction 1 as [| x | a b x y _ IHa _ IHb | a b x HP _ IH]; intros Hin.
  - destruct Hin.
  - destruct Hin as [-> | []]. reflexivity.
  - apply in_app_or in Hin as [Hin | Hin].
    + rewrite (IHa Hin). apply add_nan_l.
    + rewrite (IHb Hin). apply add_nan_r.
  - apply IH. apply Permutation_sym in HP. exact (Permutation_in _ HP Hin).
Qed.

(** The elementwise terms of [cross_entropy] hold a NaN wherever [Y] does,
    and wherever [P] does when the logarithm of NaN is NaN. *)
Lemma terms_nan (m : libm) (Y P : list float64) :
  length Y = length P ->
  In S754_nan Y \/ (log64 m S754_nan = S754_nan /\ In S754_nan P) ->
  In S754_nan
    (zip_with f64_add
       (zip_with f64_mul Y (map (log64 m) P))
       (zip_with f64_mul (map (f64_sub f64_one) Y)
          (map (log64 m) (map (f64_sub f64_one) P)))).
Proof.
  revert P; induction Y as [|y Y IH]; intros [|p P] E H; simpl in E;
    try discriminate.
  - destruct H as [[] | [_ []]].
  - cbn [map zip_with].
    assert (Hc : y = S754_nan \/ (log64 m S754_nan = S754_nan /\ p = S754_nan) \/
                 (In S754_nan Y \/ (log64 m S754_nan = S754_nan /\ In S754_nan P))).
    { destruct H as [[-> | H] | [Hl [-> | H]]]; auto. }
    destruct Hc as [-> | [[Hl ->] | Hc]].
    + left. rewrite mul_nan_l. apply add_nan_l.
    + left. rewrite Hl, mul_nan_r. apply add_nan_l.
    + right. apply IH; [congruence | assumption].
Qed.

Lemma cross_entropy_sum (m : libm) (Y P : list float64) :
  length Y = length P ->
  cross_entropy (N := numpy64 m) Y P =
  Ok (f64_neg (sum64 m
       (zip_with f64_add
          (zip_with f64_mul Y (map (log64 m) P))
          (zip_with f64_mul (map (f64_sub f64_one) Y)
             (map (log64 m) (map (f64_sub f64_one) P)))))).
Proof.
  intros E. unfold cross_entropy, np_float_, np_log, scalar_sub.
  assert (L1 : length Y = length (map (log64 m) P)) by now rewrite length_map.
  assert (L2 : length (map (f64_sub f64_one) Y) =
               length (map (log64 m) (map (f64_sub f64_one) P)))
    by now rewrite !length_map.
  cbn [f_log f_sub f_one f_mul f_add f_neg np_sum numpy64].
  rewrite (elementwise_same_length f64_mul _ _ L1).
  rewrite (elementwise_same_length f64_mul _ _ L2).
  cbn [bind].
  rewrite elementwise_same_length
    by (rewrite !zip_with_length; rewrite ?length_map; auto).
  reflexivity.
Qed.

(** X13: on two empty sequences [cross_entropy] raises nothing and returns
    negative zero, [-0.0]: the sum of the empty array is [0.0] and the
    result is its negation. *)
Theorem cross_entropy_empty (m : libm) :
  conforming m ->
  cross_entropy (N := numpy64 m) [] [] = Ok (S754_zero true).
Proof.
  intros Hm. rewrite cross_entropy_sum by reflexivity. cbn [map zip_with].
  now rewrite (sums_to_nil_inv [] _ (sum_grouping m Hm [])).
Qed.

Lemma cross_entropy_empty_witness :
  cross_entropy (N := numpy64 ref_libm) [] [] = Ok (S754_zero true).
Proof.
  apply (cross_entropy_empty ref_libm). exact ref_conforming.
Defined.

(** X14: a NaN among the labels makes the result of [cross_entropy] NaN,
    whatever the other values are; so does a NaN among the probabilities
    when the library's logarithm of NaN is NaN. *)
Theorem cross_entropy_nan (m : libm) (Y P : list float64) :
  conforming m ->
  length Y = length P ->
  In S754_nan Y \/ (log64 m S754_nan = S754_nan /\ In S754_nan P) ->
  cross_entropy (N := numpy64 m) Y P = Ok S754_nan.
Proof.
  intros Hm E H. rewrite cross_entropy_sum by assumption.
  rewrite (sums_to_nan _ _ (sum_grouping m Hm _) (terms_nan m Y P E H)).
  reflexivity.
Qed.

Lemma cross_entropy_nan_witness :
  cross_entropy (N := numpy64 ref_libm)
    [f64_one; S754_nan] [f64_one; f64_one] = Ok S754_nan.
Proof.
  apply (cross_entropy_nan ref_libm).
  - exact ref_conforming.
  - reflexivity.
  - left. right. left. reflexivity.
Defined.

(** X15: as soon as one logit is 710 or more, no output of [softmax] is
    usable: [exp] overflows, the sum is infinite or NaN, and every output
    is NaN, [0.0] or [-0.0]; none is positive. *)
Theorem softmax_overflow_all (m : libm) (L : list float64) :
  conforming m ->
  Exists (fun x => valid_binary prec emax x = true /\ SFleb f64_710 x = true) L ->
  Forall (fun r => zero_or_nan r = true /\ positive64 r = false)
         (softmax (N := numpy64 m) L).
Proof.
  intros Hm HE. rewrite softmax_eq.
  cbn [np_exp f_exp f_div np_sum numpy64].
  assert (Hs : nonfinite (sum64 m (map (exp64 m) L)) = true).
  { apply (sums_to_nonfinite _ _ (sum_grouping m Hm _)).
    apply Exists_exists in HE as (x & Hx & Hv & Hle).
    apply Exists_exists. exists (exp64 m x). split; [now apply in_map|].
    now rewrite (exp_overflow m Hm x Hv Hle). }
  apply Forall_forall. intros r Hr.
  apply in_map_iff in Hr as (e & <- & _).
  pose proof (div_nonfinite e _ Hs) as Hz.
  split; [assumption | now apply zero_or_nan_not_positive].
Qed.

Lemma softmax_overflow_all_witness :
  Forall (fun r => zero_or_nan r = true /\ positive64 r = false)
         (softmax (N := numpy64 ref_libm) [f64_one; f64_1000]).
Proof.
  apply (softmax_overflow_all ref_libm).
  - exact ref_conforming.
  - apply Exists_cons_tl, Exists_cons_hd. split; reflexivity.
Defined.

(** X16: a single NaN logit turns every output of [softmax] into NaN, when
    the library's exponential of NaN is NaN. *)
Theorem softmax_nan (m : libm) (L : list float64) :
  conforming m ->
  exp64 m S754_nan = S754_nan ->
  In S754_nan L ->
  Forall (fun r => r = S754_nan) (softmax (N := numpy64 m) L).
Proof.
  intros Hm He Hin. rewrite softmax_eq.
  cbn [np_exp f_exp f_div np_sum numpy64].
  assert (Hs : sum64 m (map (exp64 m) L) = S754_nan).
  { apply (sums_to_nan _ _ (sum_grouping m Hm _)).
    rewrite <- He. now apply in_map. }
  apply Forall_forall. intros r Hr.
  apply in_map_iff in Hr as (e & <- & _).
  change (f64_div e (sum64 m (map (exp64 m) L)) = S754_nan).
  rewrite Hs. apply div_nan_r.
Qed.

Lemma softmax_nan_witness :
  Forall (fun r => r = S754_nan)
         (softmax (N := numpy64 ref_libm) [f64_one; S754_nan]).
Proof.
  apply (softmax_nan ref_libm).
  - exact ref_conforming.
  - reflexivity.
  - right. left. reflexivity.
Defined.

End Binary64Laws.
